(** * MCServer: a Discord cog supervising a Minecraft server

    A shallow embedding of [src/MCServer.py].  The cog keeps two mutable
    attributes ([self.rcon], [self.server_proc]) and talks to three outside
    parties: the child process, the RCON port and the query port of the
    server, and the chat channel it answers on.  The embedding threads the
    attributes through a state-and-exception monad, takes every outside
    party as a handler over an arbitrary world type, and records each
    outside call together with its outcome in a trace. *)

From Stdlib Require Import String Ascii List ZArith Bool Lia DecimalString.
Import ListNotations.
Open Scope string_scope.
Open Scope list_scope.

(** Python's [+] on [str]. *)
Infix "+++" := String.append (right associativity, at level 60).

(** ** Python exceptions *)

Inductive exn_class : Type :=
| Exception
| OSError
| ConnectionError
| ConnectionRefusedError
| ConnectionResetError
| ConnectionAbortedError
| BrokenPipeError
| TimeoutError
| ProcessLookupError
| gaierror
| TypeError
| AttributeError
| IndexError
| MCServerError
| RCONFailedError.

Definition exn_class_eq_dec (c d : exn_class) : {c = d} + {c <> d}.
Proof. decide equality. Defined.

Definition class_eqb (c d : exn_class) : bool :=
  if exn_class_eq_dec c d then true else false.

(** The direct base class: the builtin hierarchy, [socket.gaierror] (a
    subclass of [OSError]) and the two classes the module declares. *)
Definition base (c : exn_class) : option exn_class :=
  match c with
  | Exception => None
  | OSError => Some Exception
  | ConnectionError => Some OSError
  | ConnectionRefusedError => Some ConnectionError
  | ConnectionResetError => Some ConnectionError
  | ConnectionAbortedError => Some ConnectionError
  | BrokenPipeError => Some ConnectionError
  | TimeoutError => Some OSError
  | ProcessLookupError => Some OSError
  | gaierror => Some OSError
  | TypeError => Some Exception
  | AttributeError => Some Exception
  | IndexError => Some Exception
  | MCServerError => Some Exception
  | RCONFailedError => Some MCServerError
  end.

Fixpoint mro_upto (depth : nat) (c : exn_class) : list exn_class :=
  c :: match depth with
       | O => []
       | S d => match base c with
                | Some b => mro_upto d b
                | None => []
                end
       end.

(** No class above is more than three steps below [Exception]. *)
Definition mro (c : exn_class) : list exn_class := mro_upto 3 c.

Definition issubclass (c d : exn_class) : bool :=
  existsb (class_eqb d) (mro c).

(** A raised exception: its class and its [args]. *)
Record exn : Type := mk_exn { exn_cls : exn_class; exn_args : list string }.

Definition isinstance (e : exn) (c : exn_class) : bool :=
  issubclass (exn_cls e) c.
Arguments isinstance : simpl never.

(** Class objects are truthy, so [A or B] between classes is [A]. *)
Definition class_bool (_ : exn_class) : bool := true.

Definition py_or (x y : exn_class) : exn_class :=
  if class_bool x then x else y.

(** ** Values the cog handles *)

(** [os.getenv(name, default)] gives the text of the variable, or the
    default as it is written (an [int] for the two ports). *)
Inductive env_value : Type :=
| env_str (s : string)
| env_int (z : Z).

Definition str_of_int (z : Z) : string := NilZero.string_of_int (Z.to_int z).

Definition str_of_env (v : env_value) : string :=
  match v with
  | env_str s => s
  | env_int z => str_of_int z
  end.

Record Config : Type := {
  SERVER_IP : string;
  PUBLIC_IP : string;
  SERVER_PORT : env_value;
  SERVER_RCON_PORT : env_value;
  SERVER_RCON_PASSWORD : string;
  SERVER_WORKING_DIRECTORY : string;
  SERVER_EXEC_COMMAND : string;
  SERVER_STOP_TIMEOUT : Z
}.

(** [mctools.mclient.BaseClient] names three formatting methods. *)
Inductive format_method : Type := REPLACE | REMOVE | RAW.

Definition REMOVE_FORMATTER : format_method := REMOVE.

(** The [RCONClient] object: what its constructor was given. *)
Record RCONClient : Type := {
  rc_host : string;
  rc_port : env_value;
  rc_format : format_method
}.

(** The handle of a spawned child process. *)
Record Process : Type := { pid : nat }.

(** [MinecraftServer.lookup(address)]. *)
Record MinecraftServer : Type := { address : string }.

Inductive stdio : Type := PIPE.

(** An argument of [_exec] as Python sees it: a [str], or a [list] of
    [str]. *)
Inductive py_word : Type :=
| py_str (s : string)
| py_list (items : list string).

(** [async_status()]: the fields [_info] reads.  The latency is a float and
    is carried as the text [str] gives for it. *)
Record PingResponse : Type := {
  version_name : string;
  latency : string;
  status_players_online : Z;
  status_players_max : Z
}.

(** [async_query()]: the fields [_players] reads. *)
Record QueryResponse : Type := {
  players_online : Z;
  players_max : Z;
  players_names : list string
}.

Inductive Colour : Type := green | red.

Record EmbedField : Type := {
  field_name : string;
  field_value : string;
  field_inline : bool
}.

Record Embed : Type := {
  title : option string;
  description : option string;
  colour : option Colour;
  fields : list EmbedField;
  thumbnail : option string
}.

Inductive message : Type :=
| text (s : string)
| embed_ (e : Embed).

(** ** The outside world *)

Inductive Res (A : Type) : Type :=
| Ok (v : A)
| Raise (e : exn).
Arguments Ok {A} v.
Arguments Raise {A} e.

(** [sep.join(items)]: the items have to be [str]; the first that is not
    raises [TypeError] with its position. *)
Fixpoint strs_of (i : nat) (items : list py_word) : Res (list string) :=
  match items with
  | [] => Ok []
  | py_str s :: rest =>
      match strs_of (S i) rest with
      | Ok ss => Ok (s :: ss)
      | Raise e => Raise e
      end
  | py_list _ :: _ =>
      Raise (mk_exn TypeError ["sequence item " +++ str_of_int (Z.of_nat i)
                                 +++ ": expected str instance, list found"])
  end.

Definition str_join (sep : string) (items : list py_word) : Res string :=
  match strs_of 0 items with
  | Ok ss => Ok (String.concat sep ss)
  | Raise e => Raise e
  end.

(** [list[str](word)]: the list of the characters of [word].  This is what
    discord.py makes of each word typed after [mc-exec], converting it with
    the annotation of [*command]. *)
Definition as_list_of_str (word : string) : py_word :=
  py_list (map (fun c => String c EmptyString) (list_ascii_of_string word)).

(** Calls whose outcome the world decides: each returns or raises. *)
Inductive call : Type -> Type :=
| create_subprocess_shell (cmd : string) (stdout : stdio) (cwd : string) : call Process
| Process_kill (p : Process) : call unit
| RCONClient_init (host : string) (port : env_value) (fm : format_method) : call unit
| RCONClient_login (c : RCONClient) (password : string) : call bool
| RCONClient_command (c : RCONClient) (com : string) : call string
| RCONClient_stop (c : RCONClient) : call unit
| async_status (q : MinecraftServer) : call PingResponse
| async_query (q : MinecraftServer) : call QueryResponse.

(** The chat channel and the timer are taken to complete always. *)
Inductive action : Type :=
| ctx_send (m : message)
| asyncio_sleep (secs : Z).

Inductive entry : Type :=
| Called {R : Type} (c : call R) (r : Res R)
| Did (a : action).

Definition trace : Type := list entry.

(** The instance attributes.  [self.bot] is read for its command prefix only. *)
Record Self : Type := {
  command_prefix : string;
  rcon : option RCONClient;
  query : MinecraftServer;
  server_proc : option Process
}.

Definition set_rcon (v : option RCONClient) (self : Self) : Self :=
  {| command_prefix := command_prefix self;
     rcon := v;
     query := query self;
     server_proc := server_proc self |}.

Definition set_server_proc (v : option Process) (self : Self) : Self :=
  {| command_prefix := command_prefix self;
     rcon := rcon self;
     query := query self;
     server_proc := v |}.

(** ** The monad: attributes, world, exceptions, trace *)

Record Out (W A : Type) : Type := out {
  res : Res A;
  self_of : Self;
  world_of : W;
  trace_of : trace
}.
Arguments out {W A} _ _ _ _.
Arguments res {W A} _.
Arguments self_of {W A} _.
Arguments world_of {W A} _.
Arguments trace_of {W A} _.

Definition M (W A : Type) : Type := Self -> W -> Out W A.

Definition ret {W A} (a : A) : M W A :=
  fun self w => out (Ok a) self w [].

Definition raise {W A} (e : exn) : M W A :=
  fun self w => out (Raise e) self w [].

Definition bind {W A B} (m : M W A) (k : A -> M W B) : M W B :=
  fun self w =>
    match m self w with
    | out (Ok a) self1 w1 t1 =>
        match k a self1 w1 with
        | out r self2 w2 t2 => out r self2 w2 (t1 ++ t2)
        end
    | out (Raise e) self1 w1 t1 => out (Raise e) self1 w1 t1
    end.

Notation "x <- m ;; k" := (bind m (fun x => k))
  (at level 61, m at next level, right associativity).
Notation "m ;;; k" := (bind m (fun _ => k))
  (at level 61, right associativity).

(** [try: body / except cls as e: handler e]. *)
Definition try_except {W A} (body : M W A) (cls : exn_class) (handler : exn -> M W A) : M W A :=
  fun self w =>
    match body self w with
    | out (Ok a) self1 w1 t1 => out (Ok a) self1 w1 t1
    | out (Raise e) self1 w1 t1 =>
        if isinstance e cls then
          match handler e self1 w1 with
          | out r self2 w2 t2 => out r self2 w2 (t1 ++ t2)
          end
        else out (Raise e) self1 w1 t1
    end.

Definition get_self {W} : M W Self :=
  fun self w => out (Ok self) self w [].

Definition modify_self {W} (f : Self -> Self) : M W unit :=
  fun self w => out (Ok tt) (f self) w [].

Definition of_res {W A} (r : Res A) : M W A :=
  fun self w => out r self w [].

(** [await None].  [kill] is a plain method of asyncio's [Process]: it
    signals the process and returns [None], which [await] refuses. *)
Definition await_None {W} : M W unit :=
  raise (mk_exn TypeError ["object NoneType can't be used in 'await' expression"]).

Section Cog.

Context {W : Type}.

(** The world answers every call and moves on; actions only move it. *)
Variable ext : forall R : Type, call R -> W -> Res R * W.
Variable act : action -> W -> W.

(** The text [mctools] returns for a payload under a formatting method. *)
Variable formatter : format_method -> string -> string.

Variable cfg : Config.

Definition do_call {R} (c : call R) : M W R :=
  fun self w =>
    let (r, w') := ext R c w in
    out r self w' [Called c r].

Definition do_act (a : action) : M W unit :=
  fun self w => out (Ok tt) self (act a w) [Did a].

Definition send (s : string) : M W unit := do_act (ctx_send (text s)).

(** *** The [RCONClient] methods the cog uses *)

Definition RCONClient_new (host : string) (port : env_value) (fm : format_method) : M W RCONClient :=
  do_call (RCONClient_init host port fm) ;;;
  ret {| rc_host := host; rc_port := port; rc_format := fm |}.

Definition rcon_login (c : RCONClient) (password : string) : M W bool :=
  do_call (RCONClient_login c password).

(** [command] returns the payload after the client's formatting method. *)
Definition rcon_command (c : RCONClient) (com : string) : M W string :=
  payload <- do_call (RCONClient_command c com) ;;
  ret (formatter (rc_format c) payload).

Definition rcon_stop (c : RCONClient) : M W unit :=
  do_call (RCONClient_stop c).

(** Attribute access on [self.rcon]: [None] has no such method. *)
Definition the_rcon (attr : string) : M W RCONClient :=
  self <- get_self ;;
  match rcon self with
  | Some c => ret c
  | None => raise (mk_exn AttributeError ["'NoneType' object has no attribute '" +++ attr +++ "'"])
  end.

(** *** The cog *)

Definition __init__ (prefix : string) (q : MinecraftServer) : Self :=
  {| command_prefix := prefix; rcon := None; query := q; server_proc := None |}.

Definition _init_rcon : M W unit :=
  try_except
    (c <- RCONClient_new (SERVER_IP cfg) (SERVER_RCON_PORT cfg) REMOVE_FORMATTER ;;
     modify_self (set_rcon (Some c)) ;;;
     success <- rcon_login c (SERVER_RCON_PASSWORD cfg) ;;
     if negb success
     then raise (mk_exn RCONFailedError ["Invalid Authentication"])
     else ret tt)
    (py_or ConnectionError gaierror)
    (fun _ => raise (mk_exn RCONFailedError ["Server refused rcon, is rcon enabled?"])).

Definition _stop_rcon : M W unit :=
  c <- the_rcon "stop" ;;
  rcon_stop c ;;;
  modify_self (set_rcon None).

Definition _online : M W bool :=
  self <- get_self ;;
  ret (match server_proc self with Some _ => true | None => false end).

Definition _execute_mc_command (command : string) : M W string :=
  _init_rcon ;;;
  c <- the_rcon "command" ;;
  response <- rcon_command c command ;;
  _stop_rcon ;;;
  ret response.

(** Attribute access on [self.server_proc]. *)
Definition the_server_proc (attr : string) : M W Process :=
  self <- get_self ;;
  match server_proc self with
  | Some p => ret p
  | None => raise (mk_exn AttributeError ["'NoneType' object has no attribute '" +++ attr +++ "'"])
  end.

Definition _start : M W unit :=
  online <- _online ;;
  if Bool.eqb online false then
    p <- do_call (create_subprocess_shell (SERVER_EXEC_COMMAND cfg) PIPE
                                          (SERVER_WORKING_DIRECTORY cfg)) ;;
    modify_self (set_server_proc (Some p)) ;;;
    send "Server starting up..."
  else
    send "Server already started!".

Definition _stop : M W unit :=
  online <- _online ;;
  if online then
    send "Stopping server..." ;;;
    _execute_mc_command "stop" ;;;
    do_act (asyncio_sleep (SERVER_STOP_TIMEOUT cfg)) ;;;
    try_except
      (p <- the_server_proc "kill" ;;
       do_call (Process_kill p) ;;;
       await_None ;;;
       send "Server took too long to stop, force killing...")
      ProcessLookupError
      (fun _ => ret tt) ;;;
    send "Server stopped" ;;;
    modify_self (set_server_proc None)
  else
    send "Server is not online".

(** The held branch of [_stop] up to the end of the grace period: where
    the world stands when the wait is over. *)
Definition stop_until_wait : M W unit :=
  send "Stopping server..." ;;;
  _execute_mc_command "stop" ;;;
  do_act (asyncio_sleep (SERVER_STOP_TIMEOUT cfg)).

Definition add_field (name value : string) (inline : bool) (e : Embed) : Embed :=
  {| title := title e;
     description := description e;
     colour := colour e;
     fields := fields e ++ [{| field_name := name; field_value := value; field_inline := inline |}];
     thumbnail := thumbnail e |}.

Definition set_title (t : string) (e : Embed) : Embed :=
  {| title := Some t; description := description e; colour := colour e;
     fields := fields e; thumbnail := thumbnail e |}.

Definition set_description (d : string) (e : Embed) : Embed :=
  {| title := title e; description := Some d; colour := colour e;
     fields := fields e; thumbnail := thumbnail e |}.

Definition set_colour (c : Colour) (e : Embed) : Embed :=
  {| title := title e; description := description e; colour := Some c;
     fields := fields e; thumbnail := thumbnail e |}.

Definition set_thumbnail (url : string) (e : Embed) : Embed :=
  {| title := title e; description := description e; colour := colour e;
     fields := fields e; thumbnail := Some url |}.

Definition new_Embed : Embed :=
  {| title := None; description := None; colour := None; fields := []; thumbnail := None |}.

(** The [f"{self.PUBLIC_IP}:{self.SERVER_PORT}"] both [_info] and [_join] build. *)
Definition public_address : string :=
  PUBLIC_IP cfg +++ ":" +++ str_of_env (SERVER_PORT cfg).

(** The embed is a local object the [try] body changes in place; the body
    can raise at its first statement only, so the handler starts from the
    embed as it was before the [try]. *)
Definition _info : M W unit :=
  self <- get_self ;;
  let embed := add_field "Address" public_address false
                 (set_title "Server Status" new_Embed) in
  embed <- try_except
    (stats <- do_call (async_status (query self)) ;;
     ret (set_thumbnail ("https://eu.mc-api.net/v3/server/favicon/" +++ public_address)
           (add_field "Players"
              (str_of_int (status_players_online stats) +++ " out of "
                 +++ str_of_int (status_players_max stats)) false
           (add_field "Ping" (latency stats +++ " ms") false
           (add_field "Version" (version_name stats) false
           (set_colour green
           (set_description "Server is online" embed)))))))
    (py_or ConnectionError gaierror)
    (fun _ =>
       ret (set_colour red
           (set_description ("Server is offline, run `" +++ command_prefix self
                               +++ "mc-start` to start it") embed))) ;;
  do_act (ctx_send (embed_ embed)).

Definition nl : string := String "010" "".

Definition _players : M W unit :=
  online <- _online ;;
  if online then
    try_except
      (self <- get_self ;;
       query <- do_call (async_query (query self)) ;;
       let names := String.concat nl (players_names query) in
       if (0 <? String.length names)%nat then
         send (str_of_int (players_online query) +++ " out of "
                 +++ str_of_int (players_max query) +++ " online," +++ nl
                 +++ "```" +++ nl +++ names +++ nl +++ "```")
       else
         send "No players online")
      (py_or (py_or ConnectionError TimeoutError) gaierror)
      (fun _ => send "Server refused query, is query enabled?")
  else
    send "Server is not online".

Definition _join : M W unit :=
  send ("The server can be joined by typing `" +++ public_address
          +++ "` as the server address").

(** [command] is the tuple of the arguments after [ctx]. *)
Definition _exec (command : list py_word) : M W unit :=
  online <- _online ;;
  if online then
    to_exec <- of_res (str_join " " command) ;;
    try_except
      (response <- _execute_mc_command to_exec ;;
       if negb (String.eqb response "") then
         send ("Server responded with the following:" +++ nl
                 +++ "```" +++ nl +++ response +++ nl +++ "```")
       else
         ret tt)
      RCONFailedError
      (fun error =>
         match exn_args error with
         | a :: _ => send a
         | [] => raise (mk_exn IndexError ["tuple index out of range"])
         end)
  else
    send "Server is not online".

(** The commands as they are invoked from the chat; [mc_exec] comes with
    the words typed after its name. *)
Inductive op : Type :=
| mc_start
| mc_stop
| mc_info
| mc_players
| mc_join
| mc_exec (words : list string).

(** The two operations of the process supervisor. *)
Definition is_lifecycle (o : op) : bool :=
  match o with
  | mc_start | mc_stop => true
  | _ => false
  end.

Definition run_op (o : op) : M W unit :=
  match o with
  | mc_start => _start
  | mc_stop => _stop
  | mc_info => _info
  | mc_players => _players
  | mc_join => _join
  | mc_exec words => _exec (map as_list_of_str words)
  end.

End Cog.

Arguments run_op {W} ext act formatter cfg o.

(** A sequence of commands run one after the other, each to its end
    before the next starts; an exception a command lets escape ends that
    command only.  The cog takes no lock and a command gives way at each
    [await], so two commands in flight at once can interleave: such
    overlapping runs are not what this function describes. *)
Fixpoint run_ops {W : Type} (ext : forall R : Type, call R -> W -> Res R * W)
    (act : action -> W -> W) (formatter : format_method -> string -> string)
    (cfg : Config) (os : list op) (self : Self) (w : W) : Self * W * trace :=
  match os with
  | [] => (self, w, [])
  | o :: rest =>
      let r := run_op ext act formatter cfg o self w in
      let '(self', w', t) := run_ops ext act formatter cfg rest (self_of r) (world_of r) in
      (self', w', trace_of r ++ t)
  end.

(** ** Reading traces *)

Definition is_kill (e : entry) : bool :=
  match e with
  | Called (Process_kill _) _ => true
  | _ => false
  end.

Definition is_spawn (e : entry) : bool :=
  match e with
  | Called (create_subprocess_shell _ _ _) _ => true
  | _ => false
  end.

Definition is_query (e : entry) : bool :=
  match e with
  | Called (async_status _) _ => true
  | Called (async_query _) _ => true
  | _ => false
  end.

Definition is_rcon_command (e : entry) : bool :=
  match e with
  | Called (RCONClient_command _ _) _ => true
  | _ => false
  end.

Definition is_rcon_stop (e : entry) : bool :=
  match e with
  | Called (RCONClient_stop _) _ => true
  | _ => false
  end.

Definition is_sleep (e : entry) : bool :=
  match e with
  | Did (asyncio_sleep _) => true
  | _ => false
  end.

Definition is_rcon (e : entry) : bool :=
  match e with
  | Called (RCONClient_init _ _ _) _ => true
  | Called (RCONClient_login _ _) _ => true
  | Called (RCONClient_command _ _) _ => true
  | Called (RCONClient_stop _) _ => true
  | _ => false
  end.

Definition is_send (e : entry) : bool :=
  match e with
  | Did (ctx_send _) => true
  | _ => false
  end.

(** An entry that reaches the process or the network: all but a chat message. *)
Definition is_outside (e : entry) : bool :=
  match e with
  | Did (ctx_send _) => false
  | _ => true
  end.

Definition exn_cls_of_res {A} (r : Res A) : option exn_class :=
  match r with
  | Ok _ => None
  | Raise e => Some (exn_cls e)
  end.

(** [kill] raised the [ProcessLookupError] of a process that is gone. *)
Definition process_was_gone (rk : Res unit) : bool :=
  match rk with
  | Ok _ => false
  | Raise e => isinstance e ProcessLookupError
  end.

Definition count (p : entry -> bool) (t : trace) : nat := List.length (filter p t).
Arguments count : simpl never.

(** The login of the trace returned (the TCP connection is open from then
    on) and no [stop] of the client follows. *)
Definition is_login_returned (e : entry) : bool :=
  match e with
  | Called (RCONClient_login _ _) (Ok _) => true
  | _ => false
  end.

Fixpoint connection_left_open (t : trace) : bool :=
  match t with
  | [] => false
  | e :: rest =>
      if is_login_returned e
      then negb (existsb is_rcon_stop rest) || connection_left_open rest
      else connection_left_open rest
  end.

(** ** A simulated server, for concrete runs *)

Module Sim.

Inductive net : Type := reachable | refusing | unresolvable | timing_out.

Definition net_error (n : net) : exn :=
  match n with
  | reachable => mk_exn Exception []
  | refusing => mk_exn ConnectionRefusedError ["[Errno 111] Connection refused"]
  | unresolvable => mk_exn gaierror ["[Errno -2] Name or service not known"]
  | timing_out => mk_exn TimeoutError ["timed out"]
  end.

Record world : Type := {
  rcon_net : net;
  query_net : net;
  password : string;
  alive : bool;
  obeys_stop : bool;
  players : list string;
  max_players : Z;
  open_connections : nat;
  spawned : nat
}.

Definition set_alive (b : bool) (w : world) : world :=
  {| rcon_net := rcon_net w; query_net := query_net w; password := password w;
     alive := b; obeys_stop := obeys_stop w;
     players := players w; max_players := max_players w;
     open_connections := open_connections w; spawned := spawned w |}.

Definition set_open (n : nat) (w : world) : world :=
  {| rcon_net := rcon_net w; query_net := query_net w; password := password w;
     alive := alive w; obeys_stop := obeys_stop w;
     players := players w; max_players := max_players w;
     open_connections := n; spawned := spawned w |}.

Definition set_spawned (n : nat) (w : world) : world :=
  {| rcon_net := rcon_net w; query_net := query_net w; password := password w;
     alive := alive w; obeys_stop := obeys_stop w;
     players := players w; max_players := max_players w;
     open_connections := open_connections w; spawned := n |}.

Definition ext (R : Type) (c : call R) (w : world) : Res R * world :=
  match c in call R return Res R * world with
  | create_subprocess_shell _ _ _ =>
      (Ok {| pid := S (spawned w) |}, set_alive true (set_spawned (S (spawned w)) w))
  | Process_kill _ =>
      if alive w then (Ok tt, set_alive false w)
      else (Raise (mk_exn ProcessLookupError []), w)
  | RCONClient_init _ _ _ => (Ok tt, w)
  | RCONClient_login _ pw =>
      match rcon_net w with
      | reachable => (Ok (String.eqb pw (password w)), set_open (S (open_connections w)) w)
      | n => (Raise (net_error n), w)
      end
  | RCONClient_command _ com =>
      if String.eqb com "stop"
      then (Ok "Stopping the server", set_alive (alive w && negb (obeys_stop w)) w)
      else (Ok ("Done: " +++ com), w)
  | RCONClient_stop _ => (Ok tt, set_open (Nat.pred (open_connections w)) w)
  | async_status _ =>
      match query_net w with
      | reachable =>
          (Ok {| version_name := "1.16.5"; latency := "12.5";
                 status_players_online := Z.of_nat (List.length (players w));
                 status_players_max := max_players w |}, w)
      | n => (Raise (net_error n), w)
      end
  | async_query _ =>
      match query_net w with
      | reachable =>
          (Ok {| players_online := Z.of_nat (List.length (players w));
                 players_max := max_players w;
                 players_names := players w |}, w)
      | n => (Raise (net_error n), w)
      end
  end.

Definition act (_ : action) (w : world) : world := w.

(** The simulated server answers in plain text, which the client hands
    on as it is under every formatting method. *)
Definition formatter (_ : format_method) (s : string) : string := s.

Definition cfg : Config :=
  {| SERVER_IP := "127.0.0.1";
     PUBLIC_IP := "private";
     SERVER_PORT := env_int 25565;
     SERVER_RCON_PORT := env_int 25575;
     SERVER_RCON_PASSWORD := "";
     SERVER_WORKING_DIRECTORY := "./";
     SERVER_EXEC_COMMAND := "./start.sh";
     SERVER_STOP_TIMEOUT := 5 |}.

(** A server that is up, accepts the configured password and has nobody on. *)
Definition healthy : world :=
  {| rcon_net := reachable; query_net := reachable; password := "";
     alive := true; obeys_stop := true;
     players := []; max_players := 20; open_connections := 0; spawned := 1 |}.

Definition with_rcon_net (n : net) (w : world) : world :=
  {| rcon_net := n; query_net := query_net w; password := password w;
     alive := alive w; obeys_stop := obeys_stop w;
     players := players w; max_players := max_players w;
     open_connections := open_connections w; spawned := spawned w |}.

Definition with_query_net (n : net) (w : world) : world :=
  {| rcon_net := rcon_net w; query_net := n; password := password w;
     alive := alive w; obeys_stop := obeys_stop w;
     players := players w; max_players := max_players w;
     open_connections := open_connections w; spawned := spawned w |}.

Definition with_password (p : string) (w : world) : world :=
  {| rcon_net := rcon_net w; query_net := query_net w; password := p;
     alive := alive w; obeys_stop := obeys_stop w;
     players := players w; max_players := max_players w;
     open_connections := open_connections w; spawned := spawned w |}.

Definition with_obeys_stop (b : bool) (w : world) : world :=
  {| rcon_net := rcon_net w; query_net := query_net w; password := password w;
     alive := alive w; obeys_stop := b;
     players := players w; max_players := max_players w;
     open_connections := open_connections w; spawned := spawned w |}.

Definition absent : Self := __init__ "!" {| address := "127.0.0.1:25565" |}.

Definition held : Self := set_server_proc (Some {| pid := 1 |}) absent.

End Sim.

(** ** More ways to read a trace *)

(** The messages a run sent to the caller, in order. *)
Definition sent (t : trace) : list message :=
  flat_map (fun e => match e with
                     | Did (ctx_send m) => [m]
                     | _ => []
                     end) t.
Arguments sent : simpl never.

Definition is_login_accepted (e : entry) : bool :=
  match e with
  | Called (RCONClient_login _ _) (Ok true) => true
  | _ => false
  end.

(** A command entry, if that is what [e] is, carries the text [com]. *)
Definition commands_are (com : string) (e : entry) : bool :=
  match e with
  | Called (RCONClient_command _ c) _ => String.eqb c com
  | _ => true
  end.

(** The command [com] was sent and the server answered it. *)
Definition is_answered_command (com : string) (e : entry) : bool :=
  match e with
  | Called (RCONClient_command _ c) (Ok _) => String.eqb c com
  | _ => false
  end.

(** A spawn that returned a handle. *)
Definition is_spawned (e : entry) : bool :=
  match e with
  | Called (create_subprocess_shell _ _ _) (Ok _) => true
  | _ => false
  end.

(** The parties an operation may reach: the process for the two
    lifecycle operations, the RCON port for stopping and for command
    execution, the query port for the two status operations, and the
    chat channel for all. *)
Definition reaches (o : op) (e : entry) : bool :=
  match o with
  | mc_start => is_spawn e || is_send e
  | mc_stop => is_rcon e || is_sleep e || is_kill e || is_send e
  | mc_info => is_query e || is_send e
  | mc_players => is_query e || is_send e
  | mc_join => is_send e
  | mc_exec _ => is_rcon e || is_send e
  end.

(** The operations that first ask [_online]. *)
Definition needs_handle (o : op) : bool :=
  match o with
  | mc_stop | mc_players | mc_exec _ => true
  | _ => false
  end.

(** What [_players] sends for a query answer that lists [names]. *)
Definition players_listing (q : QueryResponse) : string :=
  str_of_int (players_online q) +++ " out of " +++ str_of_int (players_max q)
    +++ " online," +++ nl +++ "```" +++ nl
    +++ String.concat nl (players_names q) +++ nl +++ "```".

(** No name at all, or one name that is the empty text. *)
Definition no_visible_name (names : list string) : bool :=
  match names with
  | [] => true
  | [n] => String.eqb n ""
  | _ => false
  end.

(** The simulated server with two players on. *)
Definition busy : Sim.world :=
  {| Sim.rcon_net := Sim.reachable; Sim.query_net := Sim.reachable; Sim.password := "";
     Sim.alive := true; Sim.obeys_stop := true;
     Sim.players := ["Steve"; "Alex"]; Sim.max_players := 20;
     Sim.open_connections := 0; Sim.spawned := 1 |}.

(** * Properties *)

Section Properties.

Context {W : Type}.
Variable ext : forall R : Type, call R -> W -> Res R * W.
Variable act : action -> W -> W.
Variable formatter : format_method -> string -> string.
Variable cfg : Config.

Local Abbreviation execute := (_execute_mc_command ext formatter cfg).
Local Abbreviation start := (_start ext act cfg).
Local Abbreviation stop := (_stop ext act formatter cfg).
Local Abbreviation info := (_info ext act cfg).
Local Abbreviation players := (_players ext act).
Local Abbreviation join := (_join act cfg).
Local Abbreviation exec := (_exec ext act formatter cfg).
Local Abbreviation said s := (Did (ctx_send (text s))).

(** The client every command execution builds. *)
Local Abbreviation client :=
  {| rc_host := SERVER_IP cfg; rc_port := SERVER_RCON_PORT cfg;
     rc_format := REMOVE_FORMATTER |}.
Local Abbreviation rcon_init :=
  (RCONClient_init (SERVER_IP cfg) (SERVER_RCON_PORT cfg) REMOVE_FORMATTER).
Local Abbreviation spawn :=
  (create_subprocess_shell (SERVER_EXEC_COMMAND cfg) PIPE (SERVER_WORKING_DIRECTORY cfg)).

Ltac unfold_cog :=
  unfold _start, _stop, stop_until_wait, _info, _players, _join, _exec,
    _execute_mc_command, _init_rcon, _stop_rcon, _online, the_rcon,
    the_server_proc, RCONClient_new, rcon_login, rcon_command, rcon_stop,
    send, do_call, do_act, try_except, bind, ret, raise, get_self,
    modify_self, await_None, of_res.

(** One case split on whatever the run is waiting for: the outcome of the
    next outside call, a test, or the class of a raised exception. *)
Ltac case_step :=
  match goal with
  | |- context [ext ?R ?c ?w] =>
      let E := fresh "E" in
      destruct (ext R c w) as [[? | ?] ?] eqn:E; cbn
  | |- context [if negb ?b then _ else _] =>
      let E := fresh "E" in destruct b eqn:E; cbn
  | |- context [if ?b then _ else _] =>
      let E := fresh "E" in destruct b eqn:E; cbn
  | |- context [str_join ?sep ?c] =>
      let E := fresh "E" in destruct (str_join sep c) eqn:E; cbn
  | |- context [match exn_args ?e with _ => _ end] =>
      let E := fresh "E" in destruct (exn_args e) eqn:E; cbn
  end.

Ltac run_cog := unfold_cog; cbn; repeat case_step.

(** ** The exception classes *)

Lemma except_connection_or_gaierror : py_or ConnectionError gaierror = ConnectionError.
Proof. reflexivity. Qed.

Lemma except_connection_or_timeout_or_gaierror :
  py_or (py_or ConnectionError TimeoutError) gaierror = ConnectionError.
Proof. reflexivity. Qed.

Lemma gaierror_is_no_ConnectionError (args : list string) :
  isinstance (mk_exn gaierror args) ConnectionError = false.
Proof. reflexivity. Qed.

Lemma TimeoutError_is_no_ConnectionError (args : list string) :
  isinstance (mk_exn TimeoutError args) ConnectionError = false.
Proof. reflexivity. Qed.

Lemma refused_is_ConnectionError (args : list string) :
  isinstance (mk_exn ConnectionRefusedError args) ConnectionError = true.
Proof. reflexivity. Qed.

Lemma TypeError_is_no_ProcessLookupError (args : list string) :
  isinstance (mk_exn TypeError args) ProcessLookupError = false.
Proof. reflexivity. Qed.

(** ** One RCON command execution *)

Lemma execute_keeps_server_proc (command : string) (self : Self) (w : W) :
  server_proc (self_of (execute command self w)) = server_proc self.
Proof. run_cog; reflexivity. Qed.

Lemma execute_trace_rcon_only (command : string) (self : Self) (w : W) :
  forallb is_rcon (trace_of (execute command self w)) = true.
Proof. run_cog; reflexivity. Qed.

(** A command execution that returns went through the whole session: the
    client was built with the removing formatter, the login was accepted,
    the command was sent once, the client was stopped, and the text is the
    formatter's rendering of the payload. *)
Lemma execute_returns_inv (command : string) (self : Self) (w : W) (response : string) :
  res (execute command self w) = Ok response ->
  exists payload,
    response = formatter REMOVE payload
    /\ trace_of (execute command self w)
       = [Called rcon_init (Ok tt);
          Called (RCONClient_login client (SERVER_RCON_PASSWORD cfg)) (Ok true);
          Called (RCONClient_command client command) (Ok payload);
          Called (RCONClient_stop client) (Ok tt)]
    /\ rcon (self_of (execute command self w)) = None.
Proof.
  run_cog; intros H; try discriminate H.
  injection H as <-.
  repeat match goal with u : unit |- _ => destruct u end.
  eexists; repeat split; reflexivity.
Qed.

(** A returned execution leaves no connection behind. *)
Lemma execute_returns_closed (command : string) (self : Self) (w : W) (response : string) :
  res (execute command self w) = Ok response ->
  connection_left_open (trace_of (execute command self w)) = false.
Proof.
  intros H. destruct (execute_returns_inv _ _ _ _ H) as (payload & _ & -> & _).
  reflexivity.
Qed.

(** A rejected login: the typed failure is raised at once, the command is
    not sent, and neither is the client stopped. *)
Lemma execute_login_rejected (command : string) (self : Self) (w w0 w1 : W) :
  ext _ rcon_init w = (Ok tt, w0) ->
  ext _ (RCONClient_login client (SERVER_RCON_PASSWORD cfg)) w0 = (Ok false, w1) ->
  execute command self w
  = out (Raise (mk_exn RCONFailedError ["Invalid Authentication"]))
        (set_rcon (Some client) self) w1
        [Called rcon_init (Ok tt);
         Called (RCONClient_login client (SERVER_RCON_PASSWORD cfg)) (Ok false)].
Proof. intros H0 H1. unfold_cog; cbn. rewrite H0; cbn. rewrite H1; cbn. reflexivity. Qed.

(** A login that raises: a [ConnectionError] becomes the typed failure,
    anything else leaves [_execute_mc_command] as it is. *)
Lemma execute_login_raises (command : string) (self : Self) (w w0 w1 : W) (e : exn) :
  ext _ rcon_init w = (Ok tt, w0) ->
  ext _ (RCONClient_login client (SERVER_RCON_PASSWORD cfg)) w0 = (Raise e, w1) ->
  res (execute command self w)
  = Raise (if isinstance e ConnectionError
           then mk_exn RCONFailedError ["Server refused rcon, is rcon enabled?"]
           else e).
Proof.
  intros H0 H1. unfold_cog; cbn. rewrite H0; cbn. rewrite H1; cbn.
  destruct (isinstance e ConnectionError); reflexivity.
Qed.

(** A command that raises after an accepted login: the exception leaves
    with the client still set and never stopped. *)
Lemma execute_command_raises (command : string) (self : Self) (w w0 w1 w2 : W) (e : exn) :
  ext _ rcon_init w = (Ok tt, w0) ->
  ext _ (RCONClient_login client (SERVER_RCON_PASSWORD cfg)) w0 = (Ok true, w1) ->
  ext _ (RCONClient_command client command) w1 = (Raise e, w2) ->
  execute command self w
  = out (Raise e) (set_rcon (Some client) self) w2
        [Called rcon_init (Ok tt);
         Called (RCONClient_login client (SERVER_RCON_PASSWORD cfg)) (Ok true);
         Called (RCONClient_command client command) (Raise e)].
Proof.
  intros H0 H1 H2. unfold_cog; cbn. rewrite H0; cbn. rewrite H1; cbn.
  rewrite H2; cbn. reflexivity.
Qed.

(** ** The supervisor: [_start] and [_stop] *)

Lemma count_app (f : entry -> bool) (t u : trace) :
  count f (t ++ u) = count f t + count f u.
Proof. unfold count. rewrite filter_app, length_app. reflexivity. Qed.

Lemma count_cons (f : entry -> bool) (e : entry) (t : trace) :
  count f (e :: t) = (if f e then 1 else 0) + count f t.
Proof. unfold count. cbn [filter]. destruct (f e); reflexivity. Qed.

Lemma rcon_only_no_kill (t : trace) :
  forallb is_rcon t = true -> count is_kill t = 0.
Proof.
  induction t as [| e t IH]; [reflexivity |].
  cbn [forallb]. intros H. apply andb_true_iff in H as [He Ht].
  unfold count. cbn [filter].
  destruct e as [R c r | a]; [destruct c |]; try discriminate He;
    cbn; apply IH, Ht.
Qed.

Lemma rcon_only_no_sleep (t : trace) :
  forallb is_rcon t = true -> count is_sleep t = 0.
Proof.
  induction t as [| e t IH]; [reflexivity |].
  cbn [forallb]. intros H. apply andb_true_iff in H as [He Ht].
  unfold count. cbn [filter].
  destruct e as [R c r | a]; [destruct c |]; try discriminate He;
    cbn; apply IH, Ht.
Qed.

Lemma rcon_only_no_spawn (t : trace) :
  forallb is_rcon t = true -> count is_spawn t = 0.
Proof.
  induction t as [| e t IH]; [reflexivity |].
  cbn [forallb]. intros H. apply andb_true_iff in H as [He Ht].
  unfold count. cbn [filter].
  destruct e as [R c r | a]; [destruct c |]; try discriminate He;
    cbn; apply IH, Ht.
Qed.

(** Open [_stop] down to its graceful command, which stays folded, and
    name what that command leaves behind. *)
Ltac open_stop p Hp :=
  unfold _stop, stop_until_wait, _online, the_server_proc, send, do_act,
    do_call, try_except, bind, ret, raise, get_self, modify_self, await_None; cbn;
  rewrite ?Hp; cbn;
  match goal with
  | |- context [_execute_mc_command ext formatter cfg ?c ?s ?w] =>
      let K := fresh "K" in
      let T := fresh "T" in
      let E := fresh "E" in
      pose proof (execute_keeps_server_proc c s w) as K;
      pose proof (execute_trace_rcon_only c s w) as T;
      destruct (_execute_mc_command ext formatter cfg c s w) as [[resp | err] s1 w1 t1] eqn:E;
      cbn in K, T; rewrite Hp in K; cbn; rewrite ?K; cbn
  end.

(** A graceful command that raises ends [_stop] there: the exception
    leaves the command, nothing waits, nothing is killed, and the handle
    stays. *)
Lemma stop_leaves_with_the_rcon_failure (self : Self) (w : W) (p : Process) (e : exn) :
  server_proc self = Some p ->
  res (execute "stop" self (act (ctx_send (text "Stopping server...")) w)) = Raise e ->
  res (stop self w) = Raise e
  /\ server_proc (self_of (stop self w)) = Some p
  /\ count is_sleep (trace_of (stop self w)) = 0
  /\ count is_kill (trace_of (stop self w)) = 0.
Proof.
  intros Hp. open_stop p Hp; intros H; [discriminate H |].
  injection H as ->.
  repeat split; try assumption.
  - rewrite count_cons, (rcon_only_no_sleep _ T). reflexivity.
  - rewrite count_cons, (rcon_only_no_kill _ T). reflexivity.
Qed.


(** The [kill] that returns: [None] cannot be awaited, so [TypeError]
    leaves [_stop] after the process was signalled, nothing more is said
    and the handle stays. *)
Lemma stop_await_of_None_keeps_handle (self : Self) (w : W) (p : Process) :
  server_proc self = Some p ->
  res (stop_until_wait ext act formatter cfg self w) = Ok tt ->
  fst (ext _ (Process_kill p) (world_of (stop_until_wait ext act formatter cfg self w)))
  = Ok tt ->
  exn_cls_of_res (res (stop self w)) = Some TypeError
  /\ server_proc (self_of (stop self w)) = Some p
  /\ count is_kill (trace_of (stop self w)) = 1.
Proof.
  intros Hp. open_stop p Hp; intros H; [| discriminate H].
  destruct (ext unit (Process_kill p) _) as [[[] | ek] wk] eqn:Ek; cbn;
    intros Hk; try discriminate Hk.
  rewrite TypeError_is_no_ProcessLookupError; cbn.
  split; [reflexivity | split; [assumption |]].
  rewrite count_cons, count_app, (rcon_only_no_kill _ T). reflexivity.
Qed.


(** ** The query commands: [_info] and [_players] *)

Ltac case_handle :=
  match goal with
  | |- context [match server_proc ?s with _ => _ end] =>
      let E := fresh "E" in destruct (server_proc s) eqn:E; cbn
  end.

(** A [ConnectionError] from the status query is the offline report. *)
Lemma info_reports_offline (self : Self) (w w' : W) (e : exn) :
  ext _ (async_status (query self)) w = (Raise e, w') ->
  isinstance e ConnectionError = true ->
  res (info self w) = Ok tt
  /\ count is_send (trace_of (info self w)) = 1.
Proof.
  intros H Hi. unfold_cog; cbn. rewrite H; cbn. rewrite Hi; cbn.
  split; reflexivity.
Qed.

(** Any other exception of the status query leaves [_info] as it is, and
    nothing is sent. *)
Lemma info_lets_others_escape (self : Self) (w w' : W) (e : exn) :
  ext _ (async_status (query self)) w = (Raise e, w') ->
  isinstance e ConnectionError = false ->
  info self w = out (Raise e) self w' [Called (async_status (query self)) (Raise e)].
Proof.
  intros H Hi. unfold_cog; cbn. rewrite H; cbn. rewrite Hi; cbn. reflexivity.
Qed.

Lemma players_reports_refusal (self : Self) (w w' : W) (p : Process) (e : exn) :
  server_proc self = Some p ->
  ext _ (async_query (query self)) w = (Raise e, w') ->
  isinstance e ConnectionError = true ->
  players self w
  = out (Ok tt) self (act (ctx_send (text "Server refused query, is query enabled?")) w')
        [Called (async_query (query self)) (Raise e);
         said "Server refused query, is query enabled?"].
Proof.
  intros Hp H Hi. unfold_cog; cbn. rewrite Hp; cbn. rewrite H; cbn. rewrite Hi; cbn.
  reflexivity.
Qed.

Lemma players_lets_others_escape (self : Self) (w w' : W) (p : Process) (e : exn) :
  server_proc self = Some p ->
  ext _ (async_query (query self)) w = (Raise e, w') ->
  isinstance e ConnectionError = false ->
  players self w = out (Raise e) self w' [Called (async_query (query self)) (Raise e)].
Proof.
  intros Hp H Hi. unfold_cog; cbn. rewrite Hp; cbn. rewrite H; cbn. rewrite Hi; cbn.
  reflexivity.
Qed.

(** C5, amended.  [_info] never looks at the handle: with or without
    one it asks the same query and gives the same answer.  [_players]
    looks first: with no handle it asks nothing and says the server is
    not online; with a handle it asks exactly one query, and which
    handle it is makes no difference. *)
Theorem queries_and_the_handle (self : Self) (w : W) (v : option Process) (p p' : Process) :
  (res (info (set_server_proc v self) w) = res (info self w)
   /\ world_of (info (set_server_proc v self) w) = world_of (info self w)
   /\ trace_of (info (set_server_proc v self) w) = trace_of (info self w)
   /\ count is_query (trace_of (info self w)) = 1)
  /\ players (set_server_proc None self) w
     = out (Ok tt) (set_server_proc None self)
           (act (ctx_send (text "Server is not online")) w)
           [said "Server is not online"]
  /\ (res (players (set_server_proc (Some p') self) w)
      = res (players (set_server_proc (Some p) self) w)
      /\ world_of (players (set_server_proc (Some p') self) w)
         = world_of (players (set_server_proc (Some p) self) w)
      /\ trace_of (players (set_server_proc (Some p') self) w)
         = trace_of (players (set_server_proc (Some p) self) w)
      /\ count is_query (trace_of (players (set_server_proc (Some p) self) w)) = 1).
Proof.
  split; [| split].
  - run_cog; repeat split; reflexivity.
  - reflexivity.
  - run_cog; repeat split; reflexivity.
Qed.

(** C8, amended.  While a handle is held, a full query against a server
    with nobody on, which answers with an empty sequence of names and
    an online count of 0, is a success and not an error: [_players]
    returns, having asked once, got that answer, and said that no
    players are online. *)
Theorem players_on_an_empty_server
    (self : Self) (w w' : W) (p : Process) (q : QueryResponse) :
  server_proc self = Some p ->
  ext _ (async_query (query self)) w = (Ok q, w') ->
  players_names q = [] ->
  players_online q = 0%Z ->
  res (players self w) = Ok tt
  /\ exists answer,
       trace_of (players self w)
       = [Called (async_query (query self)) (Ok answer); said "No players online"]
       /\ players_names answer = []
       /\ players_online answer = 0%Z.
Proof.
  intros Hp H Hn Ho. unfold_cog; cbn. rewrite Hp; cbn. rewrite H; cbn.
  rewrite Hn; cbn. split; [reflexivity |].
  exists q. split; [reflexivity | split; assumption].
Qed.

(** ** The handle belongs to [_start] and [_stop] *)

Lemma info_keeps_server_proc (self : Self) (w : W) :
  server_proc (self_of (info self w)) = server_proc self.
Proof. run_cog; reflexivity. Qed.

Lemma players_keeps_server_proc (self : Self) (w : W) :
  server_proc (self_of (players self w)) = server_proc self.
Proof. unfold_cog; cbn. case_handle; repeat case_step; congruence. Qed.

Lemma join_keeps_server_proc (self : Self) (w : W) :
  server_proc (self_of (join self w)) = server_proc self.
Proof. reflexivity. Qed.

Lemma exec_keeps_server_proc (command : list py_word) (self : Self) (w : W) :
  server_proc (self_of (exec command self w)) = server_proc self.
Proof. unfold_cog; cbn. case_handle; repeat case_step; congruence. Qed.

(** C10.  Status, player list, join address and command execution leave
    [server_proc] as they found it, whether they return or raise. *)
Theorem only_start_and_stop_touch_server_proc
    (self : Self) (w : W) (command : list py_word) (to_exec : string) :
  server_proc (self_of (info self w)) = server_proc self
  /\ server_proc (self_of (players self w)) = server_proc self
  /\ server_proc (self_of (join self w)) = server_proc self
  /\ server_proc (self_of (exec command self w)) = server_proc self
  /\ server_proc (self_of (execute to_exec self w)) = server_proc self.
Proof.
  repeat apply conj.
  - apply info_keeps_server_proc.
  - apply players_keeps_server_proc.
  - apply join_keeps_server_proc.
  - apply exec_keeps_server_proc.
  - apply execute_keeps_server_proc.
Qed.

Lemma run_op_keeps_server_proc (o : op) (self : Self) (w : W) :
  is_lifecycle o = false ->
  server_proc (self_of (run_op ext act formatter cfg o self w)) = server_proc self.
Proof.
  destruct o; intros H; try discriminate H; cbn [run_op].
  - apply info_keeps_server_proc.
  - apply players_keeps_server_proc.
  - apply join_keeps_server_proc.
  - apply exec_keeps_server_proc.
Qed.

(** The same over any sequence of such operations. *)
Lemma run_ops_without_lifecycle_keep_server_proc (os : list op) (self : Self) (w : W) :
  forallb (fun o => negb (is_lifecycle o)) os = true ->
  server_proc (fst (fst (run_ops ext act formatter cfg os self w))) = server_proc self.
Proof.
  revert self w. induction os as [| o os IH]; intros self w H; [reflexivity |].
  cbn [forallb] in H. apply andb_true_iff in H as [Ho Hos].
  cbn [run_ops].
  specialize (IH (self_of (run_op ext act formatter cfg o self w))
                 (world_of (run_op ext act formatter cfg o self w)) Hos).
  destruct (run_ops ext act formatter cfg os _ _) as [[self' w'] t]. cbn in IH |- *.
  rewrite IH. apply run_op_keeps_server_proc.
  destruct (is_lifecycle o); [discriminate Ho | reflexivity].
Qed.


(** ** More on one RCON command execution *)

Lemma rcon_only_sends_nothing (t : trace) :
  forallb is_rcon t = true -> sent t = [].
Proof.
  induction t as [| e t IH]; [reflexivity |].
  cbn [forallb]. intros H. apply andb_true_iff in H as [He Ht].
  unfold sent in *.
  destruct e as [R c r | a]; [destruct c |]; try discriminate He;
    cbn; apply IH, Ht.
Qed.

(** X1.  A command is sent at most once per execution, never before the
    login was accepted, and what is sent is the command asked for. *)
Theorem execute_sends_only_after_accepted_login (command : string) (self : Self) (w : W) :
  count is_rcon_command (trace_of (execute command self w))
  <= count is_login_accepted (trace_of (execute command self w))
  /\ count is_rcon_command (trace_of (execute command self w)) <= 1
  /\ forallb (commands_are command) (trace_of (execute command self w)) = true.
Proof.
  run_cog; unfold count; cbn; rewrite ?String.eqb_refl; repeat apply conj;
    (reflexivity || lia).
Qed.

(** X2.  Every execution builds its own client: whatever [self.rcon] held
    before, a stale client of a failed execution included, the outcome,
    the calls made and the world left behind are the same. *)
Theorem execute_ignores_previous_client
    (v : option RCONClient) (command : string) (self : Self) (w : W) :
  res (execute command (set_rcon v self) w) = res (execute command self w)
  /\ world_of (execute command (set_rcon v self) w) = world_of (execute command self w)
  /\ trace_of (execute command (set_rcon v self) w) = trace_of (execute command self w).
Proof. run_cog; repeat apply conj; reflexivity. Qed.

(** X3.  No [ConnectionError] leaves [_init_rcon]: one raised by the
    constructor or by the login is replaced by the typed RCON failure. *)
Theorem init_rcon_lets_no_ConnectionError_out (self : Self) (w : W) (e : exn) :
  res (_init_rcon ext cfg self w) = Raise e ->
  isinstance e ConnectionError = false.
Proof.
  run_cog; intros H; try discriminate H; injection H as <-;
    (reflexivity || assumption).
Qed.

Lemma execute_keeps_rest (command : string) (self : Self) (w : W) :
  command_prefix (self_of (execute command self w)) = command_prefix self
  /\ query (self_of (execute command self w)) = query self.
Proof. run_cog; split; reflexivity. Qed.

(** ** Command execution on request: [_exec] *)

(** Joining [str] items never raises and is the plain concatenation with
    the separator. *)
Lemma strs_of_strs (i : nat) (ws : list string) : strs_of i (map py_str ws) = Ok ws.
Proof.
  revert i. induction ws as [| a ws IH]; intros i; [reflexivity |].
  cbn [map strs_of]. rewrite IH. reflexivity.
Qed.

Lemma str_join_of_strs (sep : string) (ws : list string) :
  str_join sep (map py_str ws) = Ok (String.concat sep ws).
Proof. unfold str_join. rewrite strs_of_strs. reflexivity. Qed.

(** Open [_exec] down to its command execution, which stays folded. *)
Ltac open_exec Hp Hj :=
  unfold _exec, _online, send, do_act, try_except, bind, ret, raise, get_self,
    of_res; cbn;
  rewrite ?Hp; cbn; rewrite ?Hj; cbn;
  match goal with
  | |- context [_execute_mc_command ext formatter cfg ?c ?s ?w] =>
      let T := fresh "T" in
      let E := fresh "E" in
      pose proof (rcon_only_sends_nothing _ (execute_trace_rcon_only c s w)) as T;
      destruct (_execute_mc_command ext formatter cfg c s w) as [[resp | err] s1 w1 t1] eqn:E;
      cbn [trace_of] in T; cbn
  end.

Lemma sent_app (t u : trace) : sent (t ++ u) = sent t ++ sent u.
Proof. unfold sent. apply flat_map_app. Qed.

Lemma sent_said (m : message) (t : trace) :
  sent (Did (ctx_send m) :: t) = m :: sent t.
Proof. reflexivity. Qed.

(** X4.  While a handle is held and the arguments join to a command,
    [_exec] answers an execution that returned with the server's response
    in a code block; an empty response is answered with nothing at all. *)
Theorem exec_answers_with_the_response
    (command : list py_word) (to_exec : string) (self : Self) (w : W) (p : Process)
    (response : string) :
  server_proc self = Some p ->
  str_join " " command = Ok to_exec ->
  res (execute to_exec self w) = Ok response ->
  res (exec command self w) = Ok tt
  /\ sent (trace_of (exec command self w))
     = if String.eqb response "" then []
       else [text ("Server responded with the following:" +++ nl
                     +++ "```" +++ nl +++ response +++ nl +++ "```")].
Proof.
  intros Hp Hj. open_exec Hp Hj; intros H; [| discriminate H].
  injection H as ->.
  destruct (String.eqb response "") eqn:Er; cbn;
    rewrite ?sent_app, T, ?app_nil_r; split; reflexivity.
Qed.

(** X5.  While a handle is held and the arguments join to a command, an
    RCON failure of the execution does not leave [_exec]: its message is
    what the caller is told, and [_exec] returns. *)
Theorem exec_reports_the_rcon_failure
    (command : list py_word) (to_exec : string) (self : Self) (w : W) (p : Process)
    (e : exn) (a : string) (l : list string) :
  server_proc self = Some p ->
  str_join " " command = Ok to_exec ->
  res (execute to_exec self w) = Raise e ->
  isinstance e RCONFailedError = true ->
  exn_args e = a :: l ->
  res (exec command self w) = Ok tt
  /\ sent (trace_of (exec command self w)) = [text a].
Proof.
  intros Hp Hj. open_exec Hp Hj; intros H Hi Ha; [discriminate H |].
  injection H as ->. rewrite Hi, Ha; cbn.
  rewrite sent_app, T. split; reflexivity.
Qed.

(** X6.  While a handle is held and the arguments join to a command, any
    other exception of the execution (a host that does not resolve, a
    timeout, a connection lost while the command is sent) leaves [_exec]
    as it is, with nothing said to the caller. *)
Theorem exec_lets_other_exceptions_out
    (command : list py_word) (to_exec : string) (self : Self) (w : W) (p : Process)
    (e : exn) :
  server_proc self = Some p ->
  str_join " " command = Ok to_exec ->
  res (execute to_exec self w) = Raise e ->
  isinstance e RCONFailedError = false ->
  res (exec command self w) = Raise e
  /\ sent (trace_of (exec command self w)) = [].
Proof.
  intros Hp Hj. open_exec Hp Hj; intros H Hi; [discriminate H |].
  injection H as ->. rewrite Hi; cbn. split; [reflexivity | exact T].
Qed.

(** X7.  With no handle held, [_stop], [_players] and [_exec] all stop
    at the door: the caller is told the server is not online, and
    neither process nor network is reached, whatever the world is like. *)
Theorem no_handle_no_action (o : op) (self : Self) (w : W) :
  server_proc self = None ->
  needs_handle o = true ->
  run_op ext act formatter cfg o self w
  = out (Ok tt) self (act (ctx_send (text "Server is not online")) w)
        [said "Server is not online"].
Proof.
  intros Hp Ho. destruct o; try discriminate Ho; cbn [run_op];
    unfold_cog; cbn; rewrite Hp; reflexivity.
Qed.

(** X19.  While a handle is held, [mc-exec] typed with one word or more
    never reaches the server: each word arrives as the list of its
    characters, the join of the words raises [TypeError], and the command
    ends there with no RCON call, no message and no change of state. *)
Theorem exec_with_words_raises_TypeError
    (word : string) (words : list string) (self : Self) (w : W) (p : Process) :
  server_proc self = Some p ->
  exists e,
    run_op ext act formatter cfg (mc_exec (word :: words)) self w
    = out (Raise e) self w []
    /\ exn_cls e = TypeError.
Proof.
  intros Hp. cbn [run_op map]. unfold_cog; cbn. rewrite Hp; cbn.
  eexists. split; reflexivity.
Qed.

Lemma execute_trace_commands (command : string) (self : Self) (w : W) :
  forallb (commands_are command) (trace_of (execute command self w)) = true.
Proof. run_cog; cbn; rewrite ?String.eqb_refl; reflexivity. Qed.

Lemma forallb_app_true (f : entry -> bool) (t u : trace) :
  forallb f t = true -> forallb f u = true -> forallb f (t ++ u) = true.
Proof. intros Ht Hu. rewrite forallb_app, Ht, Hu. reflexivity. Qed.

Ltac case_all := repeat (case_step || case_handle).

(** X8.  The only commands that go to the server: [_exec] sends the join
    of its arguments by single spaces (for [str] arguments the words with
    one space between them, the empty text for no argument at all) and
    sends nothing when the join raises, and [_stop] sends the literal
    [stop]. *)
Theorem commands_sent_to_the_server (command : list py_word) (self : Self) (w : W) :
  match str_join " " command with
  | Ok to_exec => forallb (commands_are to_exec) (trace_of (exec command self w)) = true
  | Raise _ => count is_rcon_command (trace_of (exec command self w)) = 0
  end
  /\ forallb (commands_are "stop") (trace_of (stop self w)) = true.
Proof.
  split.
  - unfold _exec, _online, send, do_act, try_except, bind, ret, raise, get_self,
      of_res; cbn.
    destruct (str_join " " command) as [to_exec | e] eqn:J;
      (case_handle; [| reflexivity]); [| reflexivity].
    pose proof (execute_trace_commands to_exec self w) as T.
    destruct (execute to_exec self w) as [[resp | err] s1 w1 t1];
      cbn in T |- *; case_all; cbn;
      rewrite ?app_nil_r; try apply forallb_app_true; auto.
  - unfold _stop, _online, the_server_proc, send, do_act, do_call, try_except,
      bind, ret, raise, get_self, modify_self, await_None, of_res; cbn.
    case_handle; [| reflexivity].
    pose proof (execute_trace_commands "stop" self
                  (act (ctx_send (text "Stopping server...")) w)) as T.
    destruct (execute "stop" self _) as [[resp | err] s1 w1 t1];
      cbn in T |- *; case_all; cbn;
      rewrite ?app_nil_r; try apply forallb_app_true; auto.
Qed.

(** ** More on [_stop] *)


(** What a graceful command that returned has left in the trace and in
    [self.rcon]. *)
Ltac graceful_returned E :=
  match type of E with
  | _execute_mc_command ext formatter cfg ?c ?s ?w = out (Ok ?r) ?s1 ?w1 ?t1 =>
      let I := fresh "I" in
      let payload := fresh "payload" in
      let It := fresh "It" in
      let Ir := fresh "Ir" in
      pose proof (execute_returns_inv c s w r) as I;
      rewrite E in I; cbn [res trace_of self_of] in I;
      destruct (I eq_refl) as (payload & _ & It & Ir); clear I
  end.


(** X10.  A [_stop] that returns while a handle was held brings the cog
    back to the state it was created in: no handle and no client. *)
Theorem stop_returned_is_a_fresh_cog (self : Self) (w : W) (p : Process) :
  server_proc self = Some p ->
  res (stop self w) = Ok tt ->
  self_of (stop self w) = __init__ (command_prefix self) (query self).
Proof.
  intros Hp. open_stop p Hp; [| intros H; discriminate H].
  pose proof (execute_keeps_rest "stop" self
                (act (ctx_send (text "Stopping server...")) w)) as [Kp Kq].
  rewrite E in Kp, Kq; cbn in Kp, Kq.
  graceful_returned E. cbn in Ir.
  destruct (ext unit (Process_kill p) _) as [[[] | ek] wk] eqn:Ek; cbn;
    [rewrite TypeError_is_no_ProcessLookupError; cbn
    | destruct (isinstance ek ProcessLookupError); cbn];
    intros H; try discriminate H;
    unfold set_server_proc, __init__; cbn; rewrite Kp, Kq, Ir; reflexivity.
Qed.

(** X11.  What the caller is told by a [_stop] whose graceful command
    returned: the opening word, and after it the closing word exactly
    when the [kill] found the process gone.  When the [kill] signalled a
    live process, or failed in another way, nothing more is said. *)
Theorem stop_tells_the_caller (self : Self) (w : W) (p : Process) :
  server_proc self = Some p ->
  res (stop_until_wait ext act formatter cfg self w) = Ok tt ->
  sent (trace_of (stop self w))
  = text "Stopping server..."
    :: (if process_was_gone
             (fst (ext _ (Process_kill p)
                     (world_of (stop_until_wait ext act formatter cfg self w))))
        then [text "Server stopped"]
        else []).
Proof.
  intros Hp. open_stop p Hp; intros H; [| discriminate H].
  pose proof (rcon_only_sends_nothing _ T) as S.
  destruct (ext unit (Process_kill p) _) as [[[] | ek] wk] eqn:Ek; cbn;
    [rewrite TypeError_is_no_ProcessLookupError; cbn
    | destruct (isinstance ek ProcessLookupError); cbn];
    rewrite sent_said, sent_app, S; reflexivity.
Qed.


(** X20.  The notice that the server took too long and is being force
    killed is never sent: it comes after the awaited [kill], and that
    [await] never completes. *)
Theorem stop_never_sends_the_force_kill_notice (self : Self) (w : W) :
  ~ In (text "Server took too long to stop, force killing...")
       (sent (trace_of (stop self w))).
Proof.
  destruct (server_proc self) as [p |] eqn:Hp.
  - open_stop p Hp; pose proof (rcon_only_sends_nothing _ T) as S.
    + destruct (ext unit (Process_kill p) _) as [[[] | ek] wk] eqn:Ek; cbn;
        [rewrite TypeError_is_no_ProcessLookupError; cbn
        | destruct (isinstance ek ProcessLookupError); cbn];
        rewrite sent_said, sent_app, S; unfold sent; cbn; intuition discriminate.
    + rewrite sent_said, S. cbn. intuition discriminate.
  - unfold_cog; cbn. rewrite Hp; unfold sent; cbn. intuition discriminate.
Qed.

(** ** Each operation and its parties *)

Lemma forallb_weaken (f g : entry -> bool) (t : trace) :
  (forall e, f e = true -> g e = true) ->
  forallb f t = true -> forallb g t = true.
Proof.
  intros Hfg. induction t as [| e t IH]; [reflexivity |].
  cbn [forallb]. intros H. apply andb_true_iff in H as [He Ht].
  rewrite (Hfg e He), (IH Ht). reflexivity.
Qed.

Lemma rcon_reached_by_stop (e : entry) : is_rcon e = true -> reaches mc_stop e = true.
Proof. intros H. cbn [reaches]. rewrite H. reflexivity. Qed.

Lemma rcon_reached_by_exec (words : list string) (e : entry) :
  is_rcon e = true -> reaches (mc_exec words) e = true.
Proof. intros H. cbn [reaches]. rewrite H. reflexivity. Qed.

(** Open [_stop] or [_exec] around the command execution and split on
    everything else; [T] is what is known of the execution's trace. *)
Ltac around_execute :=
  unfold _stop, _exec, _online, the_server_proc, send, do_act, do_call, try_except,
    bind, ret, raise, get_self, modify_self, await_None, of_res; cbn;
  case_handle; [| reflexivity];
  try (match goal with
       | |- context [str_join ?sep ?c] =>
           destruct (str_join sep c) eqn:?; cbn; [| reflexivity]
       end);
  match goal with
  | |- context [_execute_mc_command ext formatter cfg ?c ?s ?w] =>
      let T := fresh "T" in
      pose proof (execute_trace_rcon_only c s w) as T;
      let K := fresh "K" in
      pose proof (execute_keeps_server_proc c s w) as K;
      destruct (_execute_mc_command ext formatter cfg c s w) as [[resp | err] s1 w1 t1];
      cbn in T, K |- *;
      match goal with
      | H : server_proc s = Some _ |- _ => rewrite H in K
      end;
      rewrite ?K; cbn
  end.

(** X12.  Each operation reaches its own parties and no other: only
    [_start] spawns, only [_stop] waits or kills, only [_stop] and
    [_exec] open an RCON session, only [_info] and [_players] query, and
    [_join] reaches nothing but the caller. *)
Theorem operations_reach_their_own_parties (o : op) (self : Self) (w : W) :
  forallb (reaches o) (trace_of (run_op ext act formatter cfg o self w)) = true.
Proof.
  destruct o; cbn [run_op].
  - unfold_cog; cbn. case_all; reflexivity.
  - around_execute;
      pose proof (forallb_weaken _ _ _ rcon_reached_by_stop T) as T';
      case_all; cbn [forallb reaches is_rcon is_sleep is_kill is_send orb andb];
      rewrite ?app_nil_r; try apply forallb_app_true; auto.
  - run_cog; reflexivity.
  - unfold_cog; cbn. case_all; reflexivity.
  - reflexivity.
  - around_execute;
      pose proof (forallb_weaken _ _ _ (rcon_reached_by_exec words) T) as T';
      case_all; cbn [forallb reaches is_rcon is_sleep is_kill is_send orb andb];
      rewrite ?app_nil_r; try apply forallb_app_true; auto.
Qed.

(** ** Sequences of operations *)

Lemma stop_handle_after (self : Self) (w : W) :
  server_proc (self_of (stop self w)) = None
  \/ server_proc (self_of (stop self w)) = server_proc self.
Proof.
  unfold _stop, _online, the_server_proc, send, do_act, do_call, try_except,
    bind, ret, raise, get_self, modify_self, await_None, of_res; cbn.
  case_handle; [| right; assumption].
  pose proof (execute_keeps_server_proc "stop" self
                (act (ctx_send (text "Stopping server...")) w)) as K.
  destruct (execute "stop" self _) as [[resp | err] s1 w1 t1]; cbn in K |- *;
    [| right; congruence].
  case_all; cbn; (left; reflexivity) || (right; congruence).
Qed.

Lemma start_handle_after (self : Self) (w : W) :
  match server_proc self with
  | Some p =>
      server_proc (self_of (start self w)) = Some p
      /\ count is_spawned (trace_of (start self w)) = 0
  | None =>
      (server_proc (self_of (start self w)) = None
       /\ count is_spawned (trace_of (start self w)) = 0)
      \/ (exists q,
            server_proc (self_of (start self w)) = Some q
            /\ In (Called spawn (Ok q)) (trace_of (start self w))
            /\ count is_spawned (trace_of (start self w)) = 1)
  end.
Proof.
  destruct (server_proc self) as [p |] eqn:Hp; unfold_cog; cbn; rewrite Hp; cbn.
  - split; [assumption | reflexivity].
  - destruct (ext Process spawn w) as [[q | e] w'] eqn:E; cbn.
    + right. exists q. split; [reflexivity | split; [left; reflexivity | reflexivity]].
    + left. split; [assumption | reflexivity].
Qed.

Lemma run_op_handle_origin (o : op) (self : Self) (w : W) :
  server_proc (self_of (run_op ext act formatter cfg o self w)) = None
  \/ server_proc (self_of (run_op ext act formatter cfg o self w)) = server_proc self
  \/ exists q,
       server_proc (self_of (run_op ext act formatter cfg o self w)) = Some q
       /\ In (Called spawn (Ok q)) (trace_of (run_op ext act formatter cfg o self w)).
Proof.
  destruct (is_lifecycle o) eqn:Ho.
  - destruct o; try discriminate Ho; cbn [run_op].
    + pose proof (start_handle_after self w) as H.
      destruct (server_proc self) as [p |].
      * right; left. apply H.
      * destruct H as [[H _] | (q & H & Hin & _)]; [left; exact H |].
        right; right. exists q. split; assumption.
    + destruct (stop_handle_after self w) as [H | H]; [left | right; left]; exact H.
  - right; left. apply run_op_keeps_server_proc, Ho.
Qed.

(** X14.  Whatever operations are run, in whatever world, the handle the
    cog ends up holding is one that [create_subprocess_shell] returned
    during the run for the configured command and directory, unless it
    is the handle held at the start or no handle at all. *)
Theorem held_handle_comes_from_a_spawn (os : list op) (self : Self) (w : W) :
  let self' := fst (fst (run_ops ext act formatter cfg os self w)) in
  let t := snd (run_ops ext act formatter cfg os self w) in
  server_proc self' = None
  \/ server_proc self' = server_proc self
  \/ exists q, server_proc self' = Some q /\ In (Called spawn (Ok q)) t.
Proof.
  revert self w. induction os as [| o os IH]; intros self w; cbn [run_ops].
  - right; left. reflexivity.
  - specialize (IH (self_of (run_op ext act formatter cfg o self w))
                   (world_of (run_op ext act formatter cfg o self w))).
    destruct (run_ops ext act formatter cfg os _ _) as [[self' w'] t].
    cbn [fst snd] in IH |- *.
    destruct IH as [H | [H | (q & H & Hin)]].
    + left; exact H.
    + destruct (run_op_handle_origin o self w) as [H1 | [H1 | (q & H1 & Hin)]].
      * left; congruence.
      * right; left; congruence.
      * right; right. exists q. split; [congruence | apply in_or_app; left; exact Hin].
    + right; right. exists q. split; [exact H | apply in_or_app; right; exact Hin].
Qed.

(** ** More on [_players] and [_info] *)

Lemma append_cons_not_empty (a : string) (c : ascii) (s : string) :
  (0 <? String.length (a +++ String c s))%nat = true.
Proof. destruct a; reflexivity. Qed.

(** The joined names are the empty text only for no name, or for one
    name that is itself empty. *)
Lemma joined_names_empty (names : list string) :
  (0 <? String.length (String.concat nl names))%nat = negb (no_visible_name names).
Proof.
  destruct names as [| a [| b rest]].
  - reflexivity.
  - cbn [String.concat no_visible_name]. destruct a; reflexivity.
  - cbn [no_visible_name negb].
    change (String.concat nl (a :: b :: rest))
      with (a +++ String "010" (String.concat nl (b :: rest))).
    apply append_cons_not_empty.
Qed.

Local Arguments Nat.ltb : simpl never.

(** X16.  While a handle is held and the query is answered, [_players]
    chooses its answer by the names alone: it says that no players are
    online when the answer lists no name, or a single empty name, and
    otherwise sends the counts and the names one per line, in a code
    block.  The online count of the answer plays no part in the choice. *)
Theorem players_answer_follows_the_names
    (self : Self) (w w' : W) (p : Process) (q : QueryResponse) :
  server_proc self = Some p ->
  ext _ (async_query (query self)) w = (Ok q, w') ->
  sent (trace_of (players self w))
  = [text (if no_visible_name (players_names q)
           then "No players online"
           else players_listing q)]
  /\ res (players self w) = Ok tt.
Proof.
  intros Hp H. unfold_cog; cbn. rewrite Hp; cbn. rewrite H; cbn.
  rewrite joined_names_empty.
  destruct (no_visible_name (players_names q)); cbn; split; reflexivity.
Qed.

(** X17.  Whenever [_info] returns it has sent exactly one message, an
    embed titled "Server Status" whose first field is the public
    address.  The embed is green, with the version, the ping and the
    player counts after the address and a thumbnail, when the status
    query was answered; it is red, with the address alone, no thumbnail
    and the hint to run the start command under the bot's prefix, when
    the query raised a [ConnectionError]. *)
Theorem info_sends_one_embed (self : Self) (w : W) :
  res (info self w) = Ok tt ->
  exists e,
    sent (trace_of (info self w)) = [embed_ e]
    /\ title e = Some "Server Status"
    /\ hd_error (fields e)
       = Some {| field_name := "Address";
                 field_value := PUBLIC_IP cfg +++ ":" +++ str_of_env (SERVER_PORT cfg);
                 field_inline := false |}
    /\ ((colour e = Some green
         /\ map field_name (fields e) = ["Address"; "Version"; "Ping"; "Players"]
         /\ thumbnail e <> None
         /\ exists stats, fst (ext _ (async_status (query self)) w) = Ok stats)
        \/ (colour e = Some red
            /\ map field_name (fields e) = ["Address"]
            /\ thumbnail e = None
            /\ description e
               = Some ("Server is offline, run `" +++ command_prefix self
                         +++ "mc-start` to start it")
            /\ exists err, fst (ext _ (async_status (query self)) w) = Raise err
                           /\ isinstance err ConnectionError = true)).
Proof.
  unfold_cog; cbn.
  destruct (ext PingResponse (async_status (query self)) w) as [[stats | err] w'] eqn:E; cbn.
  - intros _. eexists. split; [reflexivity |]. split; [reflexivity |].
    split; [reflexivity |]. left.
    split; [reflexivity |]. split; [reflexivity |].
    split; [cbn; discriminate | exists stats; reflexivity].
  - destruct (isinstance err ConnectionError) eqn:Ei; cbn;
      intros H; [| discriminate H].
    eexists. split; [reflexivity |]. split; [reflexivity |].
    split; [reflexivity |]. right.
    split; [reflexivity |]. split; [reflexivity |]. split; [reflexivity |].
    split; [reflexivity |]. exists err. split; [reflexivity | exact Ei].
Qed.

End Properties.

(** * Concrete runs against the simulated server *)

(** A start, a repeated start, a stop, a repeated stop and a start again:
    the handle is taken, kept, cleared, left clear and taken anew. *)
Example lifecycle_run :
  let w := Sim.set_alive false (Sim.set_spawned 0 Sim.healthy) in
  let '(self, _, t) :=
    run_ops Sim.ext Sim.act Sim.formatter Sim.cfg
            [mc_start; mc_start; mc_stop; mc_stop; mc_start] Sim.absent w in
  server_proc self = Some {| pid := 2 |}
  /\ filter is_send t
     = [Did (ctx_send (text "Server starting up..."));
        Did (ctx_send (text "Server already started!"));
        Did (ctx_send (text "Stopping server..."));
        Did (ctx_send (text "Server stopped"));
        Did (ctx_send (text "Server is not online"));
        Did (ctx_send (text "Server starting up..."))]
  /\ count is_spawn t = 2.
Proof. vm_compute. repeat split. Qed.

(** C1.  The RCON port refuses the connection while a handle is held:
    [_stop] announces the stop and then leaves with the RCON failure.  It
    does not wait, it does not kill, the process lives on and the handle
    is still held. *)
Theorem stop_gives_up_when_rcon_is_refused :
  let w := Sim.with_rcon_net Sim.refusing Sim.healthy in
  let o := _stop Sim.ext Sim.act Sim.formatter Sim.cfg Sim.held w in
  res o = Raise (mk_exn RCONFailedError ["Server refused rcon, is rcon enabled?"])
  /\ count is_sleep (trace_of o) = 0
  /\ count is_kill (trace_of o) = 0
  /\ Sim.alive (world_of o) = true
  /\ server_proc (self_of o) = Some {| pid := 1 |}.
Proof. vm_compute. repeat split. Qed.

(** C2.  The server ignores the RCON stop, so the process is alive when
    the wait ends.  [kill] is called once and the process dies, but the
    [await] of what [kill] returned raises [TypeError]: [_stop] does not
    return, nothing after the opening word is said, and the handle is
    still held, so that a later [_start] answers that the server is
    already started. *)
Theorem stop_keeps_handle_after_killing_a_live_process :
  let w := Sim.with_obeys_stop false Sim.healthy in
  let g := stop_until_wait Sim.ext Sim.act Sim.formatter Sim.cfg Sim.held w in
  let o := _stop Sim.ext Sim.act Sim.formatter Sim.cfg Sim.held w in
  (res g = Ok tt /\ Sim.alive (world_of g) = true)
  /\ count is_kill (trace_of o) = 1
  /\ Sim.alive (world_of o) = false
  /\ exn_cls_of_res (res o) = Some TypeError
  /\ sent (trace_of o) = [text "Stopping server..."]
  /\ server_proc (self_of o) = Some {| pid := 1 |}
  /\ sent (trace_of (_start Sim.ext Sim.act Sim.cfg (self_of o) (world_of o)))
     = [text "Server already started!"].
Proof. vm_compute. repeat split. Qed.


(** C3.  The host does not resolve: the login raises [gaierror], which the
    [except] clause does not name after all, and it leaves
    [_execute_mc_command] as a bare [gaierror] instead of the typed RCON
    failure. *)
Theorem execute_lets_gaierror_escape :
  let w := Sim.with_rcon_net Sim.unresolvable Sim.healthy in
  let o := _execute_mc_command Sim.ext Sim.formatter Sim.cfg "say hi" Sim.held w in
  res o = Raise (Sim.net_error Sim.unresolvable)
  /\ exn_cls_of_res (res o) = Some gaierror
  /\ isinstance (Sim.net_error Sim.unresolvable) RCONFailedError = false
  /\ isinstance (Sim.net_error Sim.unresolvable) (py_or ConnectionError gaierror) = false.
Proof. vm_compute. repeat split. Qed.

(** C4.  The server rejects the password: the failure leaves
    [_execute_mc_command] with the connection of the login still open, no
    [stop] of the client in the trace and the client still in [self.rcon]. *)
Theorem execute_leaves_connection_open :
  let w := Sim.with_password "secret" Sim.healthy in
  let o := _execute_mc_command Sim.ext Sim.formatter Sim.cfg "say hi" Sim.held w in
  res o = Raise (mk_exn RCONFailedError ["Invalid Authentication"])
  /\ connection_left_open (trace_of o) = true
  /\ count is_rcon_stop (trace_of o) = 0
  /\ Sim.open_connections (world_of o) = 1
  /\ rcon (self_of o)
     = Some {| rc_host := "127.0.0.1"; rc_port := env_int 25575; rc_format := REMOVE |}.
Proof. vm_compute. repeat split. Qed.

(** C5 as stated fails.  Same server, same endpoint: without a handle
    [_players] asks nothing and says the server is not online, with a
    handle it asks and reports. *)
Lemma players_asks_only_with_a_handle :
  let a := _players Sim.ext Sim.act Sim.absent Sim.healthy in
  let h := _players Sim.ext Sim.act Sim.held Sim.healthy in
  query Sim.absent = query Sim.held
  /\ count is_query (trace_of a) <> count is_query (trace_of h)
  /\ filter is_send (trace_of a) <> filter is_send (trace_of h).
Proof. vm_compute. repeat split; discriminate. Qed.

(** C6.  A host that does not resolve, or a query that times out: the
    exception is no [ConnectionError], passes the [except] clause and
    leaves the command untyped, with nothing said to the caller. *)
Theorem query_failures_escape :
  let o1 := _info Sim.ext Sim.act Sim.cfg Sim.absent
                  (Sim.with_query_net Sim.unresolvable Sim.healthy) in
  let o2 := _players Sim.ext Sim.act Sim.held
                     (Sim.with_query_net Sim.timing_out Sim.healthy) in
  let o3 := _players Sim.ext Sim.act Sim.held
                     (Sim.with_query_net Sim.unresolvable Sim.healthy) in
  (exn_cls_of_res (res o1) = Some gaierror /\ count is_send (trace_of o1) = 0)
  /\ (exn_cls_of_res (res o2) = Some TimeoutError /\ count is_send (trace_of o2) = 0)
  /\ (exn_cls_of_res (res o3) = Some gaierror /\ count is_send (trace_of o3) = 0).
Proof. vm_compute. repeat split. Qed.

(** C8 as stated fails.  The server is reachable and has nobody on, but
    no handle is held: [_players] asks nothing and says that the server
    is not online. *)
Lemma players_without_a_handle_on_an_empty_server :
  let q := {| players_online := 0; players_max := 20; players_names := [] |} in
  let o := _players Sim.ext Sim.act Sim.absent Sim.healthy in
  fst (Sim.ext _ (async_query (query Sim.absent)) Sim.healthy) = Ok q
  /\ count is_query (trace_of o) = 0
  /\ sent (trace_of o) = [text "Server is not online"]
  /\ sent (trace_of o) <> [text "No players online"].
Proof. vm_compute. repeat split. discriminate. Qed.

(** The amended C8 at the simulated server with nobody on. *)
Lemma players_on_an_empty_server_witness :
  let q := {| players_online := 0; players_max := 20; players_names := [] |} in
  server_proc Sim.held = Some {| pid := 1 |}
  /\ Sim.ext _ (async_query (query Sim.held)) Sim.healthy = (Ok q, Sim.healthy)
  /\ players_names q = []
  /\ players_online q = 0%Z
  /\ res (_players Sim.ext Sim.act Sim.held Sim.healthy) = Ok tt
  /\ exists answer,
       trace_of (_players Sim.ext Sim.act Sim.held Sim.healthy)
       = [Called (async_query (query Sim.held)) (Ok answer);
          Did (ctx_send (text "No players online"))]
       /\ players_names answer = []
       /\ players_online answer = 0%Z.
Proof.
  intros q.
  split; [reflexivity | split; [reflexivity | split; [reflexivity | split; [reflexivity |]]]].
  apply (players_on_an_empty_server Sim.ext Sim.act Sim.held Sim.healthy Sim.healthy
           {| pid := 1 |} q);
    reflexivity.
Defined.

(** * The further properties at the simulated server *)

(** X3 where the RCON port refuses the connection. *)
Lemma init_rcon_lets_no_ConnectionError_out_witness :
  let w := Sim.with_rcon_net Sim.refusing Sim.healthy in
  let e := mk_exn RCONFailedError ["Server refused rcon, is rcon enabled?"] in
  res (_init_rcon Sim.ext Sim.cfg Sim.held w) = Raise e
  /\ isinstance e ConnectionError = false.
Proof.
  intros w e. split; [reflexivity |].
  apply (init_rcon_lets_no_ConnectionError_out Sim.ext Sim.cfg Sim.held w e).
  reflexivity.
Defined.

(** X4 for [mc-exec] typed with no word: the empty command is executed. *)
Lemma exec_answers_with_the_response_witness :
  server_proc Sim.held = Some {| pid := 1 |}
  /\ str_join " " [] = Ok ""
  /\ res (_execute_mc_command Sim.ext Sim.formatter Sim.cfg "" Sim.held Sim.healthy)
     = Ok "Done: "
  /\ res (_exec Sim.ext Sim.act Sim.formatter Sim.cfg [] Sim.held Sim.healthy) = Ok tt
  /\ sent (trace_of (_exec Sim.ext Sim.act Sim.formatter Sim.cfg [] Sim.held Sim.healthy))
     = [text ("Server responded with the following:" +++ nl
                +++ "```" +++ nl +++ "Done: " +++ nl +++ "```")].
Proof.
  split; [reflexivity | split; [reflexivity | split; [reflexivity |]]].
  apply (exec_answers_with_the_response Sim.ext Sim.act Sim.formatter Sim.cfg
           [] "" Sim.held Sim.healthy {| pid := 1 |} "Done: ");
    reflexivity.
Defined.

(** X5 where the server rejects the password. *)
Lemma exec_reports_the_rcon_failure_witness :
  let w := Sim.with_password "secret" Sim.healthy in
  let e := mk_exn RCONFailedError ["Invalid Authentication"] in
  server_proc Sim.held = Some {| pid := 1 |}
  /\ str_join " " [] = Ok ""
  /\ res (_execute_mc_command Sim.ext Sim.formatter Sim.cfg "" Sim.held w) = Raise e
  /\ isinstance e RCONFailedError = true
  /\ res (_exec Sim.ext Sim.act Sim.formatter Sim.cfg [] Sim.held w) = Ok tt
  /\ sent (trace_of (_exec Sim.ext Sim.act Sim.formatter Sim.cfg [] Sim.held w))
     = [text "Invalid Authentication"].
Proof.
  intros w e.
  split; [reflexivity | split; [reflexivity | split; [reflexivity | split; [reflexivity |]]]].
  apply (exec_reports_the_rcon_failure Sim.ext Sim.act Sim.formatter Sim.cfg
           [] "" Sim.held w {| pid := 1 |} e "Invalid Authentication" []);
    reflexivity.
Defined.

(** X6 where the host does not resolve. *)
Lemma exec_lets_other_exceptions_out_witness :
  let w := Sim.with_rcon_net Sim.unresolvable Sim.healthy in
  let e := Sim.net_error Sim.unresolvable in
  server_proc Sim.held = Some {| pid := 1 |}
  /\ str_join " " [] = Ok ""
  /\ res (_execute_mc_command Sim.ext Sim.formatter Sim.cfg "" Sim.held w) = Raise e
  /\ isinstance e RCONFailedError = false
  /\ res (_exec Sim.ext Sim.act Sim.formatter Sim.cfg [] Sim.held w) = Raise e
  /\ sent (trace_of (_exec Sim.ext Sim.act Sim.formatter Sim.cfg [] Sim.held w)) = [].
Proof.
  intros w e.
  split; [reflexivity | split; [reflexivity | split; [reflexivity | split; [reflexivity |]]]].
  apply (exec_lets_other_exceptions_out Sim.ext Sim.act Sim.formatter Sim.cfg
           [] "" Sim.held w {| pid := 1 |} e);
    reflexivity.
Defined.

(** X7 for a command execution asked of a fresh cog. *)
Lemma no_handle_no_action_witness :
  server_proc Sim.absent = None
  /\ needs_handle (mc_exec ["list"]) = true
  /\ run_op Sim.ext Sim.act Sim.formatter Sim.cfg (mc_exec ["list"]) Sim.absent Sim.healthy
     = out (Ok tt) Sim.absent Sim.healthy [Did (ctx_send (text "Server is not online"))].
Proof.
  split; [reflexivity | split; [reflexivity |]].
  apply (no_handle_no_action Sim.ext Sim.act Sim.formatter Sim.cfg
           (mc_exec ["list"]) Sim.absent Sim.healthy);
    reflexivity.
Defined.


(** X10 at the healthy server. *)
Lemma stop_returned_is_a_fresh_cog_witness :
  server_proc Sim.held = Some {| pid := 1 |}
  /\ res (_stop Sim.ext Sim.act Sim.formatter Sim.cfg Sim.held Sim.healthy) = Ok tt
  /\ self_of (_stop Sim.ext Sim.act Sim.formatter Sim.cfg Sim.held Sim.healthy)
     = __init__ "!" {| address := "127.0.0.1:25565" |}.
Proof.
  split; [reflexivity | split; [reflexivity |]].
  apply (stop_returned_is_a_fresh_cog Sim.ext Sim.act Sim.formatter Sim.cfg
           Sim.held Sim.healthy {| pid := 1 |});
    reflexivity.
Defined.

(** X11 at a server that ignores the RCON stop: the process is alive
    when the wait ends. *)
Lemma stop_tells_the_caller_witness :
  let w := Sim.with_obeys_stop false Sim.healthy in
  server_proc Sim.held = Some {| pid := 1 |}
  /\ res (stop_until_wait Sim.ext Sim.act Sim.formatter Sim.cfg Sim.held w) = Ok tt
  /\ sent (trace_of (_stop Sim.ext Sim.act Sim.formatter Sim.cfg Sim.held w))
     = [text "Stopping server..."].
Proof.
  intros w.
  split; [reflexivity | split; [reflexivity |]].
  apply (stop_tells_the_caller Sim.ext Sim.act Sim.formatter Sim.cfg
           Sim.held w {| pid := 1 |});
    reflexivity.
Defined.


(** X19 for [mc-exec say hi]. *)
Lemma exec_with_words_raises_TypeError_witness :
  server_proc Sim.held = Some {| pid := 1 |}
  /\ exists e,
       run_op Sim.ext Sim.act Sim.formatter Sim.cfg (mc_exec ["say"; "hi"])
              Sim.held Sim.healthy
       = out (Raise e) Sim.held Sim.healthy []
       /\ exn_cls e = TypeError.
Proof.
  split; [reflexivity |].
  apply (exec_with_words_raises_TypeError Sim.ext Sim.act Sim.formatter Sim.cfg
           "say" ["hi"] Sim.held Sim.healthy {| pid := 1 |}).
  reflexivity.
Defined.

(** X16 with two players on. *)
Lemma players_answer_follows_the_names_witness :
  let q := {| players_online := 2; players_max := 20; players_names := ["Steve"; "Alex"] |} in
  server_proc Sim.held = Some {| pid := 1 |}
  /\ Sim.ext _ (async_query (query Sim.held)) busy = (Ok q, busy)
  /\ sent (trace_of (_players Sim.ext Sim.act Sim.held busy))
     = [text ("2 out of 20 online," +++ nl +++ "```" +++ nl
                +++ "Steve" +++ nl +++ "Alex" +++ nl +++ "```")]
  /\ res (_players Sim.ext Sim.act Sim.held busy) = Ok tt.
Proof.
  intros q.
  split; [reflexivity | split; [reflexivity |]].
  apply (players_answer_follows_the_names Sim.ext Sim.act Sim.held busy busy
           {| pid := 1 |} q);
    reflexivity.
Defined.

(** X17 where the query port refuses the connection. *)
Lemma info_sends_one_embed_witness :
  let w := Sim.with_query_net Sim.refusing Sim.healthy in
  res (_info Sim.ext Sim.act Sim.cfg Sim.absent w) = Ok tt
  /\ exists e,
       sent (trace_of (_info Sim.ext Sim.act Sim.cfg Sim.absent w)) = [embed_ e]
       /\ title e = Some "Server Status"
       /\ colour e = Some red
       /\ description e = Some "Server is offline, run `!mc-start` to start it".
Proof.
  intros w. split; [reflexivity |].
  destruct (info_sends_one_embed Sim.ext Sim.act Sim.cfg Sim.absent w eq_refl)
    as (e & Hs & Ht & _ & [(Hc & _ & _ & stats & Hq) | (Hc & _ & _ & Hd & _)]).
  - discriminate Hq.
  - exists e. split; [exact Hs | split; [exact Ht | split; [exact Hc | exact Hd]]].
Defined.
